(** * The Dashboard reconciler of operator/controllers/dashboard_controller.go

    The controller is embedded as a program over an explicit signature of
    the calls it makes to its two collaborators, the Kubernetes API server
    (the resource store) and the Instana REST API (the remote service).
    A handler interprets the calls against a world made of the persisted
    objects and the chronological trace of calls; the answers the
    collaborators are free to give (HTTP replies, failed reads and writes)
    come from an environment that sees the whole trace.  An execution may
    also be cut short after any number of calls, which is how a crash of
    the process between two writes is expressed. *)

From stdpp Require Import base option list strings gmap fin_maps.

Local Open Scope string_scope.
Local Open Scope list_scope.

(** ** Data model *)

(** client.ObjectKey: namespace, then name. *)
Definition ObjectKey : Type := string * string.

(** Go's error values, as far as the controller tells them apart
    (client.IgnoreNotFound singles out the not-found API status). *)
Inductive error : Type :=
| NotFound
| Conflict
| OtherError (msg : string).

(** The part of metav1.ObjectMeta the controller reads or writes.
    ResourceVersion is the store's opaque version token, modelled as a
    counter; DeletionTimestamp is a nullable pointer in Go. *)
Record metav1_ObjectMeta : Type := {
  Name : string;
  Namespace : string;
  ResourceVersion : nat;
  DeletionTimestamp : option nat;
  Finalizers : list string
}.

Record DashboardSpec : Type := { Config : string }.

Record DashboardStatus : Type := {
  DashboardId : string;
  DashboardTitle : string
}.

(** Modelled from the spec: the Dashboard type of api/v1 (customv1.Dashboard),
    which is not among the sources.  The fields are the ones the controller
    uses: spec.config, status.remoteId (Status.DashboardId),
    status.remoteTitle (Status.DashboardTitle) and the object metadata. *)
Record Dashboard : Type := {
  ObjectMeta : metav1_ObjectMeta;
  Spec : DashboardSpec;
  Status : DashboardStatus
}.

Record InstanaApiResponse : Type := {
  Id : string;
  Title : string
}.

Record InstanaApiConfig : Type := {
  ApiToken : string;
  BaseUrl : string
}.

(** The zero value of InstanaApiResponse ([var r InstanaApiResponse]). *)
Definition zeroResponse : InstanaApiResponse := {| Id := ""; Title := "" |}.

Definition key_of (d : Dashboard) : ObjectKey :=
  (Namespace (ObjectMeta d), Name (ObjectMeta d)).

Definition set_Finalizers (fs : list string) (d : Dashboard) : Dashboard :=
  {| ObjectMeta :=
       {| Name := Name (ObjectMeta d);
          Namespace := Namespace (ObjectMeta d);
          ResourceVersion := ResourceVersion (ObjectMeta d);
          DeletionTimestamp := DeletionTimestamp (ObjectMeta d);
          Finalizers := fs |};
     Spec := Spec d;
     Status := Status d |}.

Definition set_ResourceVersion (rv : nat) (d : Dashboard) : Dashboard :=
  {| ObjectMeta :=
       {| Name := Name (ObjectMeta d);
          Namespace := Namespace (ObjectMeta d);
          ResourceVersion := rv;
          DeletionTimestamp := DeletionTimestamp (ObjectMeta d);
          Finalizers := Finalizers (ObjectMeta d) |};
     Spec := Spec d;
     Status := Status d |}.

Definition set_Status (st : DashboardStatus) (d : Dashboard) : Dashboard :=
  {| ObjectMeta := ObjectMeta d; Spec := Spec d; Status := st |}.

(** ** net/http, as far as the controller uses it *)

Record HttpRequest : Type := {
  Method : string;
  URL : string;
  Header : list (string * string);
  Body : option string
}.

(** A response that reached the controller.  [Decoded] stands for the body:
    it is the value json.Unmarshal leaves in a zero InstanaApiResponse when
    given the bytes ioutil.ReadAll returned (the zero value when the body
    cannot be read or is not JSON; both errors are ignored by the code). *)
Record HttpResponse : Type := {
  StatusCode : nat;
  Decoded : InstanaApiResponse
}.

(** ** Calls to the collaborators *)

Inductive Call : Type -> Type :=
| GetConfigMap (key : ObjectKey) : Call (gmap string string + error)
| GetDashboard (key : ObjectKey) : Call (Dashboard + error)
| StatusUpdate (d : Dashboard) : Call (Dashboard + error)
| Update (d : Dashboard) : Call (Dashboard + error)
| NewRequest (method url : string) : Call bool
| ClientDo (req : HttpRequest) : Call (option HttpResponse).

(** Programs: a value, a run-time panic (nil pointer dereference), or a
    call followed by the rest of the program. *)
Inductive Prog (R : Type) : Type :=
| Ret (r : R)
| Panic
| Vis {X : Type} (c : Call X) (k : X -> Prog R).

Arguments Ret {R} r.
Arguments Panic {R}.
Arguments Vis {R X} c k.

Fixpoint bind {A B : Type} (p : Prog A) (f : A -> Prog B) : Prog B :=
  match p with
  | Ret a => f a
  | Panic => Panic
  | Vis c k => Vis c (fun x => bind (k x) f)
  end.

Definition call {X : Type} (c : Call X) : Prog X := Vis c Ret.

#[global] Instance Prog_ret : MRet Prog := @Ret.
#[global] Instance Prog_bind : MBind Prog := fun A B f p => bind p f.

(** ** controllerutil and client helpers *)

(** controllerutil.AddFinalizer: append unless already listed. *)
Definition AddFinalizer (o : Dashboard) (finalizer : string) : Dashboard :=
  if decide (finalizer ∈ Finalizers (ObjectMeta o)) then o
  else set_Finalizers (Finalizers (ObjectMeta o) ++ [finalizer]) o.

(** controllerutil.RemoveFinalizer: drop every occurrence. *)
Definition RemoveFinalizer (o : Dashboard) (finalizer : string) : Dashboard :=
  set_Finalizers
    (filter (fun f => f ≠ finalizer) (Finalizers (ObjectMeta o))) o.

(** client.IgnoreNotFound *)
Definition IgnoreNotFound (err : error) : option error :=
  match err with
  | NotFound => None
  | _ => Some err
  end.

(** ** The controller *)

Definition finalizerName : string := "dashboard.custom.instana.io/finalizer".

Definition configKey : ObjectKey :=
  ("default", "instana-custom-dashboard-config").

Definition instanaHeaders (apiConfig : InstanaApiConfig)
  : list (string * string) :=
  [("Accept", "application/json");
   ("Content-Type", "application/json");
   ("Authorization", "apiToken " +:+ ApiToken apiConfig)].

(** The three header calls on [req2]; Go stores the keys in canonical form. *)
Definition instanaRequest (method instanaUrl : string) (body : option string)
    (apiConfig : InstanaApiConfig) : HttpRequest :=
  {| Method := method; URL := instanaUrl;
     Header := instanaHeaders apiConfig; Body := body |}.

(** In both helpers [req2] is nil when http.NewRequest fails and [resp] is
    nil when client.Do fails; the code logs either error and goes on to
    dereference the nil pointer ([req2.Header.Add],
    [defer resp.Body.Close()]), which panics.  The errors of ioutil.ReadAll
    and json.Unmarshal are ignored and leave [r] as far as it was filled. *)
Definition createDashboardInInstana (dashboard : Dashboard)
    (apiConfig : InstanaApiConfig) : Prog InstanaApiResponse :=
  let instanaUrl := BaseUrl apiConfig +:+ "/api/custom-dashboard" in
  let jsonStr := Config (Spec dashboard) in
  ok ← call (NewRequest "POST" instanaUrl);
  if ok : bool then
    resp ← call (ClientDo
                   (instanaRequest "POST" instanaUrl (Some jsonStr) apiConfig));
    match resp with
    | None => Panic
    | Some resp => mret (Decoded resp)
    end
  else Panic.

Definition deleteDashboardInInstana (dashboard : Dashboard)
    (apiConfig : InstanaApiConfig) : Prog InstanaApiResponse :=
  let instanaUrl := BaseUrl apiConfig +:+ "/api/custom-dashboard/"
                    +:+ DashboardId (Status dashboard) in
  ok ← call (NewRequest "DELETE" instanaUrl);
  if ok : bool then
    resp ← call (ClientDo (instanaRequest "DELETE" instanaUrl None apiConfig));
    match resp with
    | None => Panic
    | Some resp => mret (Decoded resp)
    end
  else Panic.

(** [cm.Data[key]]: the empty string when the key, or the whole map, is
    missing. *)
Definition cmData (res : gmap string string + error) (key : string) : string :=
  match res with
  | inl data => default "" (data !! key)
  | inr _ => ""
  end.

(** Reconcile returns [(ctrl.Result{}, err)]; the result is always the empty
    one, so only [err] is kept ([None] is nil).  The log and print lines are
    left out: they read the object and change nothing.  The one that
    indexes, [GetFinalizers()[0]], follows AddFinalizer, after which the
    list is not empty. *)
Definition Reconcile (req : ObjectKey) : Prog (option error) :=
  cm ← call (GetConfigMap configKey);
  let instanaApiConfig :=
    {| ApiToken := cmData cm "instana-api-token";
       BaseUrl := cmData cm "instana-base-url" |} in
  got ← call (GetDashboard req);
  match got with
  | inr err => mret (IgnoreNotFound err)
  | inl dashboard =>
    if decide (DeletionTimestamp (ObjectMeta dashboard) ≠ None) then
      _ ← deleteDashboardInInstana dashboard instanaApiConfig;
      let dashboard := RemoveFinalizer dashboard finalizerName in
      upd ← call (Update dashboard);
      match upd with
      | inr err => mret (Some err)
      | inl _ => mret None
      end
    else if decide (DashboardId (Status dashboard) ≠ "") then
      mret None
    else
      apiResponse ← createDashboardInInstana dashboard instanaApiConfig;
      let dashboard :=
        set_Status {| DashboardId := Id apiResponse;
                      DashboardTitle := Title apiResponse |} dashboard in
      upd ← call (StatusUpdate dashboard);
      match upd with
      | inr err => mret (Some err)
      | inl dashboard =>
        let dashboard := AddFinalizer dashboard finalizerName in
        upd ← call (Update dashboard);
        match upd with
        | inr err => mret (Some err)
        | inl _ => mret None
        end
      end
  end.


(** ** The collaborators *)

(** What the controller did, in the order it did it.  http.NewRequest only
    parses its arguments and is not an event. *)
Inductive Event : Type :=
| EvGetConfigMap (key : ObjectKey)
| EvGetDashboard (key : ObjectKey)
| EvStatusUpdate (d : Dashboard) (res : Dashboard + error)
| EvUpdate (d : Dashboard) (res : Dashboard + error)
| EvHttp (req : HttpRequest) (resp : option HttpResponse).

(** The answers that are not determined by the persisted objects.  Each may
    depend on everything that happened before.
    - [url_parses]: whether http.NewRequest accepts the URL;
    - [http_reply]: what client.Do returns, [None] for a transport error;
    - [read_fault], [write_fault]: a store call failing for reasons of its
      own (API server unreachable, a concurrent writer's conflict). *)
Record Env : Type := {
  url_parses : string -> bool;
  http_reply : list Event -> HttpRequest -> option HttpResponse;
  read_fault : list Event -> ObjectKey -> option error;
  write_fault : list Event -> Dashboard -> option error
}.

Record World : Type := {
  dashboards : gmap ObjectKey Dashboard;
  configmaps : gmap ObjectKey (gmap string string);
  trace : list Event
}.

(** The world after event [e], with the persisted dashboards [ds]. *)
Definition record (e : Event) (ds : gmap ObjectKey Dashboard) (w : World)
  : World :=
  {| dashboards := ds; configmaps := configmaps w; trace := trace w ++ [e] |}.

(** The object the API server keeps after an accepted write.  The
    Dashboard resource has a status subresource (the kubebuilder markers
    above Reconcile grant dashboards/status): a status update takes only
    the status from the request, an update of the main resource everything
    but the status.  Either bumps the resource version, and the client
    copies the stored object back into the caller's variable. *)
Definition written (status_only : bool) (d old : Dashboard) : Dashboard :=
  set_ResourceVersion (S (ResourceVersion (ObjectMeta old)))
    (if status_only then set_Status (Status d) old
     else set_Status (Status old) d).

(** An object marked for deletion leaves the store with its last finalizer. *)
Definition store_put (d : Dashboard) (ds : gmap ObjectKey Dashboard)
  : gmap ObjectKey Dashboard :=
  if decide (DeletionTimestamp (ObjectMeta d) ≠ None
             ∧ Finalizers (ObjectMeta d) = [])
  then delete (key_of d) ds
  else <[key_of d := d]> ds.

Section Handler.
Variable env : Env.

(** client.Get: the stored object, the not-found status, or the fault
    the environment injects. *)
Definition store_get {A : Type} (m : gmap ObjectKey A) (key : ObjectKey)
    (w : World) : A + error :=
  match read_fault env (trace w) key with
  | Some e => inr e
  | None =>
    match m !! key with
    | Some a => inl a
    | None => inr NotFound
    end
  end.

(** client.Update and client.Status().Update: refused by an injected
    fault, for a missing object, or for a stale resource version;
    otherwise answered with the object as stored. *)
Definition store_write (status_only : bool) (d : Dashboard) (w : World)
  : Dashboard + error :=
  match write_fault env (trace w) d with
  | Some e => inr e
  | None =>
    match dashboards w !! key_of d with
    | None => inr NotFound
    | Some old =>
      if decide (ResourceVersion (ObjectMeta d)
                 = ResourceVersion (ObjectMeta old))
      then inl (written status_only d old)
      else inr Conflict
    end
  end.

(** The persisted objects after a write that the store answered with
    [res]: nothing changes when it was refused. *)
Definition commit (status_only : bool) (d : Dashboard)
    (res : Dashboard + error) (ds : gmap ObjectKey Dashboard)
  : gmap ObjectKey Dashboard :=
  match res with
  | inl new =>
    if status_only then <[key_of d := new]> ds else store_put new ds
  | inr _ => ds
  end.

(** The answer to one call, and the world after it. *)
Definition handle {X : Type} (c : Call X) (w : World) : X * World :=
  match c in Call X return X * World with
  | GetConfigMap key =>
      (store_get (configmaps w) key w,
       record (EvGetConfigMap key) (dashboards w) w)
  | GetDashboard key =>
      (store_get (dashboards w) key w,
       record (EvGetDashboard key) (dashboards w) w)
  | StatusUpdate d =>
      let res := store_write true d w in
      (res, record (EvStatusUpdate d res) (commit true d res (dashboards w)) w)
  | Update d =>
      let res := store_write false d w in
      (res, record (EvUpdate d res) (commit false d res (dashboards w)) w)
  | NewRequest method url => (url_parses env url, w)
  | ClientDo req =>
      let resp := http_reply env (trace w) req in
      (resp, record (EvHttp req resp) (dashboards w) w)
  end.

(** How an execution of the controller ends. *)
Inductive Outcome (R : Type) : Type :=
| Returned (r : R)
| Panicked
| Crashed.

(** [exec p fuel w] runs [p] from [w].  With [fuel = None] the program
    runs to its end; with [Some n] the process is killed when it is about
    to make call number [n + 1]. *)
Fixpoint exec {R : Type} (p : Prog R) (fuel : option nat) (w : World)
  : Outcome R * World :=
  match p with
  | Ret r => (Returned R r, w)
  | Panic => (Panicked R, w)
  | Vis c k =>
    match fuel with
    | Some 0 => (Crashed R, w)
    | _ =>
      let '(x, w') := handle c w in
      exec (k x) (Nat.pred <$> fuel) w'
    end
  end.

(** One reconcile per entry of the schedule (its fuel), all for the same
    request, each starting in the world the previous one left. *)
Fixpoint reconciles (req : ObjectKey) (sched : list (option nat))
    (w : World) : list (Outcome (option error)) * World :=
  match sched with
  | [] => ([], w)
  | fuel :: sched' =>
    let '(o, w') := exec (Reconcile req) fuel w in
    let '(os, w'') := reconciles req sched' w' in
    (o :: os, w'')
  end.
End Handler.

Arguments Returned {R} r.
Arguments Panicked {R}.
Arguments Crashed {R}.

(** ** Observations on traces *)

Definition is_remote_call (e : Event) : bool :=
  match e with
  | EvHttp _ _ => true
  | _ => false
  end.

Definition is_store_write (e : Event) : bool :=
  match e with
  | EvStatusUpdate _ _ | EvUpdate _ _ => true
  | _ => false
  end.

Definition is_create_call (e : Event) : bool :=
  match e with
  | EvHttp req _ => bool_decide (Method req = "POST")
  | _ => false
  end.

Definition is_delete_call (e : Event) : bool :=
  match e with
  | EvHttp req _ => bool_decide (Method req = "DELETE")
  | _ => false
  end.

Fixpoint count (f : Event -> bool) (t : list Event) : nat :=
  match t with
  | [] => 0
  | e :: t' => (if f e then 1 else 0) + count f t'
  end.

(** [status.remoteId] non-empty. *)
Definition provisioned (d : Dashboard) : Prop := DashboardId (Status d) ≠ "".

Definition deletionRequested (d : Dashboard) : Prop :=
  DeletionTimestamp (ObjectMeta d) ≠ None.

Definition finalizerPresent (d : Dashboard) : Prop :=
  finalizerName ∈ Finalizers (ObjectMeta d).

(** The fields no reconcile is meant to touch: identity, spec.config and
    the deletion mark. *)
Definition same_frame (d d' : Dashboard) : Prop :=
  key_of d' = key_of d
  /\ Spec d' = Spec d
  /\ DeletionTimestamp (ObjectMeta d') = DeletionTimestamp (ObjectMeta d).

(** A write request that carries the frame of [d]. *)
Definition write_frame (d : Dashboard) (e : Event) : Prop :=
  match e with
  | EvStatusUpdate d' _ | EvUpdate d' _ => same_frame d d'
  | _ => True
  end.

(** Pending: no remote id yet and no deletion requested. *)
Definition pending (d : Dashboard) : Prop :=
  DashboardId (Status d) = "" /\ DeletionTimestamp (ObjectMeta d) = None.

(** The API configuration Reconcile reads from the config map of [w]. *)
Definition loadConfig (env : Env) (w : World) : InstanaApiConfig :=
  {| ApiToken :=
       cmData (store_get env (configmaps w) configKey w) "instana-api-token";
     BaseUrl :=
       cmData (store_get env (configmaps w) configKey w) "instana-base-url" |}.

(** The requests the two helpers send for [d]. *)
Definition createUrl (cfg : InstanaApiConfig) : string :=
  BaseUrl cfg +:+ "/api/custom-dashboard".

Definition deleteUrl (cfg : InstanaApiConfig) (d : Dashboard) : string :=
  BaseUrl cfg +:+ "/api/custom-dashboard/" +:+ DashboardId (Status d).

Definition createRequest (cfg : InstanaApiConfig) (d : Dashboard)
  : HttpRequest :=
  instanaRequest "POST" (createUrl cfg) (Some (Config (Spec d))) cfg.

Definition deleteRequest (cfg : InstanaApiConfig) (d : Dashboard)
  : HttpRequest :=
  instanaRequest "DELETE" (deleteUrl cfg d) None cfg.

(** The trace once Reconcile has read the config map and the object. *)
Definition loaded (req : ObjectKey) (w : World) : list Event :=
  (trace w ++ [EvGetConfigMap configKey]) ++ [EvGetDashboard req].

(** The trace once the delete call for [d] has been answered. *)
Definition afterDelete (env : Env) (d : Dashboard) (w : World)
    (resp : option HttpResponse) : list Event :=
  loaded (key_of d) w ++ [EvHttp (deleteRequest (loadConfig env w) d) resp].

(** The create branch, step by step: the trace once the create call has
    been answered, the status update requested and stored, the trace after
    it, the metadata update requested and stored. *)
Definition afterCreate (env : Env) (d : Dashboard) (w : World)
    (resp : HttpResponse) : list Event :=
  loaded (key_of d) w
  ++ [EvHttp (createRequest (loadConfig env w) d) (Some resp)].

Definition statusRequest (resp : HttpResponse) (d : Dashboard) : Dashboard :=
  set_Status {| DashboardId := Id (Decoded resp);
                DashboardTitle := Title (Decoded resp) |} d.

Definition statusStored (resp : HttpResponse) (d : Dashboard) : Dashboard :=
  written true (statusRequest resp d) d.

Definition afterStatus (env : Env) (d : Dashboard) (w : World)
    (resp : HttpResponse) : list Event :=
  afterCreate env d w resp
  ++ [EvStatusUpdate (statusRequest resp d) (inl (statusStored resp d))].

Definition metaRequest (resp : HttpResponse) (d : Dashboard) : Dashboard :=
  AddFinalizer (statusStored resp d) finalizerName.

Definition metaStored (resp : HttpResponse) (d : Dashboard) : Dashboard :=
  written false (metaRequest resp d) (statusStored resp d).

Definition is_metadata_write (e : Event) : bool :=
  match e with
  | EvUpdate _ _ => true
  | _ => false
  end.

(** Reconcile's error result for the store's answer to a write. *)
Definition write_error (res : Dashboard + error) : option error :=
  match res with
  | inl _ => None
  | inr err => Some err
  end.

(** The object [d] as far as later reconciles may change it: still stored
    with its frame and its status, or removed after its deletion was
    requested. *)
Definition settled (d : Dashboard) (w : World) : Prop :=
  match dashboards w !! key_of d with
  | Some d' => same_frame d d' /\ Status d' = Status d
  | None => deletionRequested d
  end.

(** ** The specification's rules that the theorems below compare with *)

(** A reply that reports the remote operation as done: a 2xx status, or
    404 for an artifact that is already gone.  No reply is a failure. *)
Definition remote_ok (resp : option HttpResponse) : bool :=
  match resp with
  | Some r =>
      bool_decide (200 <= StatusCode r < 300)
      || bool_decide (StatusCode r = 404)
  | None => false
  end.

Definition is_failed_delete (e : Event) : bool :=
  match e with
  | EvHttp req resp =>
      bool_decide (Method req = "DELETE") && negb (remote_ok resp)
  | _ => false
  end.

(** "If delete fails with a retryable error, the finalizer is not
    cleared": a reconcile whose remote delete failed reports an error and
    leaves the persisted objects as they were. *)
Definition failed_delete_is_reported (env : Env) (d : Dashboard) (w : World)
  : Prop :=
  let '(o, w') := exec env (Reconcile (key_of d)) None w in
  0 < count is_failed_delete (trace w') ->
  (exists e, o = Returned (Some e)) /\ dashboards w' = dashboards w.

(** "If status.remoteId is non-empty, invoke the remote-delete operation":
    starting from an empty trace, a delete call is made exactly when the
    object has a remote id. *)
Definition delete_only_with_remoteId (env : Env) (d : Dashboard) (w : World)
  : Prop :=
  let '(_, w') := exec env (Reconcile (key_of d)) None w in
  0 < count is_delete_call (trace w') <-> provisioned d.

(** "At most one create call is ever made": over a whole schedule of
    reconciles. *)
Definition at_most_one_create (env : Env) (d : Dashboard)
    (sched : list (option nat)) (w : World) : Prop :=
  count is_create_call (trace (reconciles env (key_of d) sched w).2) <= 1.

(** ** Sample worlds *)

Definition sampleConfig : gmap ObjectKey (gmap string string) :=
  {[ configKey := {[ "instana-api-token" := "tok";
                     "instana-base-url" := "https://instana.example" ]} ]}.

Definition sampleDashboard (deleting : option nat) (fs : list string)
    (id title : string) : Dashboard :=
  {| ObjectMeta := {| Name := "dash"; Namespace := "ns";
                      ResourceVersion := 1;
                      DeletionTimestamp := deleting;
                      Finalizers := fs |};
     Spec := {| Config := "{title:X}" |};
     Status := {| DashboardId := id; DashboardTitle := title |} |}.

Definition pendingX : Dashboard := sampleDashboard None [] "" "".

Definition provisionedX : Dashboard :=
  sampleDashboard None [finalizerName] "d1" "X".

Definition deletingX : Dashboard :=
  sampleDashboard (Some 7) [finalizerName] "d1" "X".

(** Deletion requested on an object whose create never returned an id. *)
Definition deletingUnprovisioned : Dashboard :=
  sampleDashboard (Some 7) [finalizerName] "" "".

Definition worldOf (d : Dashboard) : World :=
  {| dashboards := {[ key_of d := d ]};
     configmaps := sampleConfig;
     trace := [] |}.

Definition reply (code : nat) (id title : string) : option HttpResponse :=
  Some {| StatusCode := code; Decoded := {| Id := id; Title := title |} |}.

(** A reachable store and a remote service that always answers [r]. *)
Definition envReplying (r : option HttpResponse) : Env :=
  {| url_parses := fun _ => true;
     http_reply := fun _ _ => r;
     read_fault := fun _ _ => None;
     write_fault := fun _ _ => None |}.

(** The same, but the store refuses every write with a conflict. *)
Definition envRefusingWrites (r : option HttpResponse) : Env :=
  {| url_parses := fun _ => true;
     http_reply := fun _ _ => r;
     read_fault := fun _ _ => None;
     write_fault := fun _ _ => Some Conflict |}.

(** The same, but only the first write ever made is refused. *)
Definition envRefusingFirstWrite (r : option HttpResponse) : Env :=
  {| url_parses := fun _ => true;
     http_reply := fun _ _ => r;
     read_fault := fun _ _ => None;
     write_fault := fun h _ =>
       if decide (count is_store_write h = 0) then Some Conflict else None |}.

(** ** Further observations *)

(** The one URL and the one request Reconcile builds for a stored object:
    the deletion branch comes first. *)
Definition requestUrl (cfg : InstanaApiConfig) (d : Dashboard) : string :=
  if decide (deletionRequested d) then deleteUrl cfg d else createUrl cfg.

Definition requestFor (cfg : InstanaApiConfig) (d : Dashboard) : HttpRequest :=
  if decide (deletionRequested d) then deleteRequest cfg d
  else createRequest cfg d.

Definition is_status_write (e : Event) : bool :=
  match e with
  | EvStatusUpdate _ _ => true
  | _ => false
  end.




(** The finalizers of other controllers. *)
Definition foreignFinalizers (d : Dashboard) : list string :=
  filter (fun f => f ≠ finalizerName) (Finalizers (ObjectMeta d)).



(** More sample worlds: a store that cannot be read, a base URL that
    http.NewRequest rejects, a cluster without the config map. *)
Definition envUnreachable : Env :=
  {| url_parses := fun _ => true;
     http_reply := fun _ _ => None;
     read_fault := fun _ _ => Some (OtherError "connection refused");
     write_fault := fun _ _ => None |}.

Definition envBadUrl : Env :=
  {| url_parses := fun _ => false;
     http_reply := fun _ _ => None;
     read_fault := fun _ _ => None;
     write_fault := fun _ _ => None |}.


(** A deleting object that another controller also holds. *)
Definition deletingShared : Dashboard :=
  sampleDashboard (Some 7) ["other/finalizer"; finalizerName] "d1" "X".

(** ** Reasoning about executions *)

(** [post env p fuel w Q]: the execution of [p] from [w] ends in an outcome
    and a world that satisfy [Q]. *)
Definition post {R : Type} (env : Env) (p : Prog R) (fuel : option nat)
    (w : World) (Q : Outcome R -> World -> Prop) : Prop :=
  let '(o, w') := exec env p fuel w in Q o w'.

Lemma post_Ret {R} env (r : R) fuel w Q :
  post env (Ret r) fuel w Q = Q (Returned r) w.
Proof. reflexivity. Qed.

Lemma post_Panic {R} env fuel w (Q : Outcome R -> World -> Prop) :
  post env Panic fuel w Q = Q Panicked w.
Proof. reflexivity. Qed.

Lemma post_Vis_0 {R X} env (c : Call X) (k : X -> Prog R) w Q :
  post env (Vis c k) (Some 0) w Q = Q Crashed w.
Proof. reflexivity. Qed.

Lemma post_Vis_S {R X} env (c : Call X) (k : X -> Prog R) n w Q :
  post env (Vis c k) (Some (S n)) w Q
  = post env (k (handle env c w).1) (Some n) (handle env c w).2 Q.
Proof. unfold post. cbn. destruct (handle env c w). reflexivity. Qed.

Lemma post_Vis_None {R X} env (c : Call X) (k : X -> Prog R) w Q :
  post env (Vis c k) None w Q
  = post env (k (handle env c w).1) None (handle env c w).2 Q.
Proof. unfold post. cbn. destruct (handle env c w). reflexivity. Qed.

Lemma post_mono {R} env (p : Prog R) fuel w (Q Q' : Outcome R -> World -> Prop) :
  (forall o w', Q o w' -> Q' o w') -> post env p fuel w Q -> post env p fuel w Q'.
Proof. unfold post. destruct (exec env p fuel w). auto. Qed.

Lemma post_exec {R} env (p : Prog R) fuel w (Q : Outcome R -> World -> Prop) :
  post env p fuel w Q
  <-> Q (exec env p fuel w).1 (exec env p fuel w).2.
Proof. unfold post. by destruct (exec env p fuel w). Qed.

Lemma post_let {R} env (p : Prog R) fuel w (Q : Outcome R -> World -> Prop) :
  post env p fuel w Q -> let '(o, w') := exec env p fuel w in Q o w'.
Proof. done. Qed.

#[global] Opaque post.

Arguments store_get : simpl never.
Arguments store_write : simpl never.
Arguments commit : simpl never.
Arguments store_put : simpl never.
Arguments written : simpl never.
Arguments AddFinalizer : simpl never.
Arguments RemoveFinalizer : simpl never.
Arguments cmData : simpl never.
Arguments instanaRequest : simpl never.
Arguments key_of : simpl never.

(** One step of symbolic execution: take the next call, or split on what
    the program branches on. *)
Ltac step :=
  match goal with
  | |- post _ (Ret _) _ _ _ => rewrite post_Ret
  | |- post _ (mret _) _ _ _ => rewrite post_Ret
  | |- post _ Panic _ _ _ => rewrite post_Panic
  | |- post _ (Vis _ _) None _ _ => rewrite post_Vis_None
  | |- post _ (Vis _ _) (Some 0) _ _ => rewrite post_Vis_0
  | |- post _ (Vis _ _) (Some (S _)) _ _ => rewrite post_Vis_S
  | |- post _ (Vis _ _) (Some ?n) _ _ => is_var n; destruct n as [|n]
  | |- post _ (Vis _ _) ?f _ _ => is_var f; destruct f as [f|]
  | |- post _ (match ?x with _ => _ end) _ _ _ => destruct x eqn:?
  | |- post _ (bind (match ?x with _ => _ end) _) _ _ _ => destruct x eqn:?
  end.

Ltac run := unfold Reconcile; cbn; repeat (step; cbn).

Lemma store_get_found {A : Type} (env : Env) (m : gmap ObjectKey A)
    (key : ObjectKey) (w : World) (a : A) :
  read_fault env (trace w) key = None -> m !! key = Some a ->
  store_get env m key w = inl a.
Proof. unfold store_get. by intros -> ->. Qed.

Lemma store_get_missing {A : Type} (env : Env) (m : gmap ObjectKey A)
    (key : ObjectKey) (w : World) :
  read_fault env (trace w) key = None -> m !! key = None ->
  store_get env m key w = inr NotFound.
Proof. unfold store_get. by intros -> ->. Qed.

Lemma store_write_fault (env : Env) so d w e :
  write_fault env (trace w) d = Some e -> store_write env so d w = inr e.
Proof. unfold store_write. by intros ->. Qed.

Lemma store_write_ok (env : Env) so d w old :
  write_fault env (trace w) d = None ->
  dashboards w !! key_of d = Some old ->
  ResourceVersion (ObjectMeta d) = ResourceVersion (ObjectMeta old) ->
  store_write env so d w = inl (written so d old).
Proof. unfold store_write. intros -> -> ?. by rewrite decide_True. Qed.

Lemma store_get_inl {A : Type} (env : Env) (m : gmap ObjectKey A) (key : ObjectKey)
    (w : World) (a : A) :
  store_get env m key w = inl a -> m !! key = Some a.
Proof.
  unfold store_get. destruct (read_fault _ _ _); [done|].
  destruct (m !! key); naive_solver.
Qed.

Lemma store_write_inl (env : Env) so d w new :
  store_write env so d w = inl new ->
  exists old, dashboards w !! key_of d = Some old
    /\ ResourceVersion (ObjectMeta d) = ResourceVersion (ObjectMeta old)
    /\ new = written so d old.
Proof.
  unfold store_write. destruct (write_fault _ _ _); [done|].
  destruct (dashboards w !! key_of d) as [old|]; [|done].
  case_decide; [|done]. intros [= <-]. eauto.
Qed.

(** What the helpers on objects leave alone. *)
Lemma key_of_set_Status st d : key_of (set_Status st d) = key_of d.
Proof. reflexivity. Qed.

Lemma key_of_RemoveFinalizer d f : key_of (RemoveFinalizer d f) = key_of d.
Proof. reflexivity. Qed.

Lemma key_of_AddFinalizer d f : key_of (AddFinalizer d f) = key_of d.
Proof. unfold AddFinalizer. by case_decide. Qed.

Lemma key_of_written so d old :
  key_of (written so d old) = if so then key_of old else key_of d.
Proof. by destruct so. Qed.

Lemma Spec_RemoveFinalizer d f : Spec (RemoveFinalizer d f) = Spec d.
Proof. reflexivity. Qed.

Lemma Spec_AddFinalizer d f : Spec (AddFinalizer d f) = Spec d.
Proof. unfold AddFinalizer. by case_decide. Qed.

Lemma Spec_written so d old :
  Spec (written so d old) = if so then Spec old else Spec d.
Proof. by destruct so. Qed.

Lemma Status_RemoveFinalizer d f : Status (RemoveFinalizer d f) = Status d.
Proof. reflexivity. Qed.

Lemma Status_AddFinalizer d f : Status (AddFinalizer d f) = Status d.
Proof. unfold AddFinalizer. by case_decide. Qed.

Lemma Status_written so d old :
  Status (written so d old) = if so then Status d else Status old.
Proof. by destruct so. Qed.

Lemma DeletionTimestamp_RemoveFinalizer d f :
  DeletionTimestamp (ObjectMeta (RemoveFinalizer d f))
  = DeletionTimestamp (ObjectMeta d).
Proof. reflexivity. Qed.

Lemma DeletionTimestamp_AddFinalizer d f :
  DeletionTimestamp (ObjectMeta (AddFinalizer d f))
  = DeletionTimestamp (ObjectMeta d).
Proof. unfold AddFinalizer. by case_decide. Qed.

Lemma DeletionTimestamp_written so d old :
  DeletionTimestamp (ObjectMeta (written so d old))
  = DeletionTimestamp (ObjectMeta (if so then old else d)).
Proof. by destruct so. Qed.

Lemma ResourceVersion_RemoveFinalizer d f :
  ResourceVersion (ObjectMeta (RemoveFinalizer d f))
  = ResourceVersion (ObjectMeta d).
Proof. reflexivity. Qed.

Lemma ResourceVersion_AddFinalizer d f :
  ResourceVersion (ObjectMeta (AddFinalizer d f))
  = ResourceVersion (ObjectMeta d).
Proof. unfold AddFinalizer. by case_decide. Qed.

Lemma ResourceVersion_written so d old :
  ResourceVersion (ObjectMeta (written so d old))
  = S (ResourceVersion (ObjectMeta old)).
Proof. by destruct so. Qed.

Lemma Finalizers_written so d old :
  Finalizers (ObjectMeta (written so d old))
  = Finalizers (ObjectMeta (if so then old else d)).
Proof. by destruct so. Qed.

Create Rewrite HintDb frame.
#[global] Hint Rewrite key_of_set_Status key_of_RemoveFinalizer
  key_of_AddFinalizer key_of_written Spec_RemoveFinalizer Spec_AddFinalizer
  Spec_written Status_RemoveFinalizer Status_AddFinalizer Status_written
  DeletionTimestamp_RemoveFinalizer DeletionTimestamp_AddFinalizer
  DeletionTimestamp_written ResourceVersion_RemoveFinalizer
  ResourceVersion_AddFinalizer ResourceVersion_written Finalizers_written
  : frame.

(** The persisted objects after a refused and after an accepted write. *)
Lemma commit_inr so d e ds : commit so d (inr e) ds = ds.
Proof. reflexivity. Qed.

#[global] Hint Rewrite commit_inr : frame.

Lemma lookup_commit_ne so d new ds k :
  key_of d <> k -> key_of new <> k ->
  commit so d (inl new) ds !! k = ds !! k.
Proof.
  intros Hd Hn. unfold commit, store_put.
  destruct so; [|case_decide].
  - by rewrite lookup_insert_ne.
  - by rewrite lookup_delete_ne.
  - by rewrite lookup_insert_ne.
Qed.

Lemma lookup_commit_status d new ds k :
  key_of d = k -> commit true d (inl new) ds !! k = Some new.
Proof. intros <-. unfold commit. by rewrite lookup_insert_eq. Qed.

Lemma lookup_commit_meta d new ds k :
  key_of new = k ->
  commit false d (inl new) ds !! k
  = if decide (DeletionTimestamp (ObjectMeta new) <> None
               /\ Finalizers (ObjectMeta new) = [])
    then None else Some new.
Proof.
  intros <-. unfold commit, store_put. case_decide.
  - by rewrite lookup_delete_eq.
  - by rewrite lookup_insert_eq.
Qed.

Ltac frame := repeat progress (autorewrite with frame in *; cbn in *).

(** Use what the store answered: a successful read returns the stored
    object, an accepted write was made against the stored object. *)
Ltac answers Hd :=
  repeat match goal with
  | H : store_get _ (dashboards _) _ _ = inl _ |- _ =>
      apply store_get_inl in H; cbn in H; rewrite Hd in H; injection H as <-
  | H : store_write _ _ _ _ = inl _ |- _ =>
      apply store_write_inl in H; frame;
      rewrite ?lookup_commit_status in H by (frame; done);
      rewrite ?Hd in H;
      destruct H as (? & [= <-] & ? & ->)
  end.

(** Counting over traces. *)
Lemma count_app f t1 t2 : count f (t1 ++ t2) = count f t1 + count f t2.
Proof. induction t1 as [|e t1 IH]; cbn; [done|]. rewrite IH. lia. Qed.

Lemma Method_instanaRequest m u b c : Method (instanaRequest m u b c) = m.
Proof. reflexivity. Qed.

Lemma POST_is_POST : bool_decide ("POST" = "POST") = true.
Proof. reflexivity. Qed.

Lemma DELETE_is_DELETE : bool_decide ("DELETE" = "DELETE") = true.
Proof. reflexivity. Qed.

Lemma DELETE_is_not_POST : bool_decide ("DELETE" = "POST") = false.
Proof. reflexivity. Qed.

Lemma POST_is_not_DELETE : bool_decide ("POST" = "DELETE") = false.
Proof. reflexivity. Qed.

#[global] Hint Rewrite Method_instanaRequest POST_is_POST DELETE_is_DELETE
  DELETE_is_not_POST POST_is_not_DELETE : frame.

(** Name the events a run added to the trace. *)
Ltac new_events :=
  first
  [ exists []; split; [by rewrite app_nil_r|]
  | rewrite <- ?app_assoc; cbn; eexists; split; [reflexivity|] ].

Ltac forget_decisions :=
  repeat match goal with H : decide _ = _ |- _ => clear H end.

(** ** What every execution preserves *)

(** The object under reconciliation, in any execution, crashed or not:
    the other objects and the config maps are untouched, and the object
    itself is either gone (only when its deletion was requested) or keeps
    its identity, spec and deletion mark, and keeps its status too if it
    had a remote id. *)
Lemma Reconcile_store env fuel d w :
  dashboards w !! key_of d = Some d ->
  post env (Reconcile (key_of d)) fuel w (fun _ w' =>
    configmaps w' = configmaps w
    /\ (forall k, k <> key_of d -> dashboards w' !! k = dashboards w !! k)
    /\ ((dashboards w' !! key_of d = None /\ deletionRequested d)
        \/ exists d', dashboards w' !! key_of d = Some d'
             /\ same_frame d d'
             /\ (provisioned d -> Status d' = Status d))).
Proof.
  intros Hd. run.
  all: answers Hd; forget_decisions; frame.
  all: try (split; [done|split; [done|right; exists d; done]]).
  all: split; [done|split].
  all: try (intros k Hk; rewrite ?lookup_commit_ne by (frame; done); done).
  all: rewrite ?lookup_commit_meta by (frame; done).
  all: rewrite ?lookup_commit_status by (frame; done).
  all: try case_decide.
  all: unfold same_frame, deletionRequested, provisioned in *.
  all: first [ left; split; [done|]; frame; naive_solver
             | right; eexists; split; [done|]; frame; naive_solver ].
Qed.

(** The events of any execution on a stored object: write requests carry
    the object's frame, there is at most one create call, and none at all
    once the object has a remote id. *)
Lemma Reconcile_trace env fuel d w :
  dashboards w !! key_of d = Some d ->
  post env (Reconcile (key_of d)) fuel w (fun _ w' =>
    exists evs, trace w' = trace w ++ evs
      /\ Forall (write_frame d) evs
      /\ count is_create_call evs <= 1
      /\ (provisioned d -> count is_create_call evs = 0)).
Proof.
  intros Hd. run.
  all: answers Hd; forget_decisions.
  all: new_events.
  all: unfold provisioned, same_frame in *.
  all: split; [repeat constructor; frame; done|].
  all: frame; split; [lia|]; try done.
Qed.

(** Nothing is written and nobody is called for an identity that is not in
    the store. *)
Lemma Reconcile_absent env fuel req w :
  dashboards w !! req = None ->
  post env (Reconcile req) fuel w (fun _ w' =>
    dashboards w' = dashboards w
    /\ configmaps w' = configmaps w
    /\ exists evs, trace w' = trace w ++ evs
         /\ count is_remote_call evs = 0
         /\ count is_store_write evs = 0).
Proof.
  intros Habs. run.
  all: try match goal with
       | H : store_get _ (dashboards _) _ _ = inl _ |- _ =>
           apply store_get_inl in H; cbn in H; congruence
       end.
  all: split; [done|split; [done|]]; new_events; done.
Qed.

(** ** Following one execution *)

(** Take the branch the hypotheses select, where they select one. *)
Ltac known :=
  match goal with
  | |- post _ (match store_get ?env ?m ?k ?w with _ => _ end) _ _ _ =>
      first [ erewrite (store_get_found env m k w) by (cbn; eassumption)
            | rewrite (store_get_missing env m k w) by (cbn; eassumption) ]
  | |- post _ (match store_write ?env ?so ?d ?w with _ => _ end) _ _ _ =>
      first [ erewrite (store_write_fault env so d w) by (cbn; eassumption)
            | erewrite (store_write_ok env so d w);
              [ | cbn; eassumption
                | cbn; rewrite ?lookup_commit_status by (frame; done);
                  first [eassumption | reflexivity]
                | frame; done ] ]
  | H : ?x = _ |- post _ (match ?x with _ => _ end) _ _ _ => rewrite H
  | H : ?x = _ |- post _ (bind (match ?x with _ => _ end) _) _ _ _ =>
      rewrite H
  | |- post _ (if decide _ then _ else _) _ _ _ =>
      first [ rewrite decide_True by solve [done | naive_solver]
            | rewrite decide_False by solve [done | naive_solver] ]
  end.

Ltac prepare :=
  unfold pending, provisioned, deletionRequested, afterStatus, metaStored,
    metaRequest, statusStored, statusRequest, afterCreate, afterDelete,
    loaded, createRequest, deleteRequest, createUrl, deleteUrl,
    loadConfig in *;
  cbn in *.

Ltac follow :=
  prepare; unfold Reconcile; cbn; repeat (first [known | step]; cbn).

(** ** Not-found on load *)

(** C7. Reconciling an identity that is absent from the store (the load
    answers not-found) returns success, does not contact the remote
    service and writes nothing: the only events are the two reads, and the
    world is otherwise unchanged. *)
Theorem C7_absent_identity_is_noop_success (env : Env) (req : ObjectKey)
    (w : World) :
  dashboards w !! req = None ->
  read_fault env (trace w ++ [EvGetConfigMap configKey]) req = None ->
  let '(o, w') := exec env (Reconcile req) None w in
  o = Returned None
  /\ dashboards w' = dashboards w
  /\ configmaps w' = configmaps w
  /\ trace w' = trace w ++ [EvGetConfigMap configKey; EvGetDashboard req]
  /\ count is_remote_call (trace w') = count is_remote_call (trace w)
  /\ count is_store_write (trace w') = count is_store_write (trace w).
Proof.
  intros Habs Hread. apply post_let. follow.
  rewrite <- !app_assoc, !count_app. cbn. repeat split; auto with lia.
Qed.

Lemma C7_witness :
  let '(o, w') :=
    exec (envReplying None) (Reconcile ("ns", "gone")) None
      (worldOf provisionedX) in
  o = Returned None
  /\ dashboards w' = dashboards (worldOf provisionedX)
  /\ configmaps w' = configmaps (worldOf provisionedX)
  /\ trace w' = trace (worldOf provisionedX)
                ++ [EvGetConfigMap configKey; EvGetDashboard ("ns", "gone")]
  /\ count is_remote_call (trace w')
     = count is_remote_call (trace (worldOf provisionedX))
  /\ count is_store_write (trace w')
     = count is_store_write (trace (worldOf provisionedX)).
Proof.
  apply (C7_absent_identity_is_noop_success (envReplying None) ("ns", "gone")
           (worldOf provisionedX)); vm_compute; reflexivity.
Defined.

(** ** The already-provisioned branch *)

Lemma reconciles_cons env req fuel sched w :
  reconciles env req (fuel :: sched) w
  = ((exec env (Reconcile req) fuel w).1
       :: (reconciles env req sched (exec env (Reconcile req) fuel w).2).1,
     (reconciles env req sched (exec env (Reconcile req) fuel w).2).2).
Proof.
  cbn [reconciles]. destruct (exec env (Reconcile req) fuel w) as [o w1].
  cbn. by destruct (reconciles env req sched w1).
Qed.

(** One reconcile of an object that has a remote id and is not being
    deleted: two reads and nothing else; success unless the load failed. *)
Lemma provisioned_step env d w :
  dashboards w !! key_of d = Some d ->
  provisioned d -> ~ deletionRequested d ->
  post env (Reconcile (key_of d)) None w (fun o w' =>
    dashboards w' = dashboards w
    /\ configmaps w' = configmaps w
    /\ trace w' = loaded (key_of d) w
    /\ (read_fault env (trace w ++ [EvGetConfigMap configKey]) (key_of d)
        = None -> o = Returned None)).
Proof.
  intros Hd Hp Hn. prepare. unfold Reconcile. cbn. do 3 (step; cbn).
  - answers Hd. repeat (first [known | step]; cbn). done.
  - step. repeat split; try done. intros Hr.
    erewrite store_get_found in Heqs by (cbn; eassumption). done.
Qed.

(** C3. An object with a remote id and no deletion request is reconciled
    any number of times without a remote call and without a store write;
    the persisted objects stay as they are, and every invocation returns
    success (provided the load itself is answered). *)
Theorem C3_provisioned_reconcile_is_noop (env : Env) (d : Dashboard)
    (n : nat) (w : World) :
  dashboards w !! key_of d = Some d ->
  provisioned d -> ~ deletionRequested d ->
  let '(os, w') := reconciles env (key_of d) (replicate n None) w in
  dashboards w' = dashboards w
  /\ configmaps w' = configmaps w
  /\ count is_remote_call (trace w') = count is_remote_call (trace w)
  /\ count is_store_write (trace w') = count is_store_write (trace w)
  /\ ((forall h, read_fault env h (key_of d) = None) ->
      os = replicate n (Returned None)).
Proof.
  intros Hd Hp Hn. revert w Hd. induction n as [|n IH]; intros w Hd.
  { done. }
  cbn [replicate]. rewrite reconciles_cons.
  pose proof (provisioned_step env d w Hd Hp Hn) as Hstep.
  apply post_exec in Hstep.
  destruct (exec env (Reconcile (key_of d)) None w) as [o w1].
  cbn in Hstep |- *. destruct Hstep as (Hds & Hcm & Htr & Hok).
  specialize (IH w1). rewrite Hds in IH. specialize (IH Hd).
  destruct (reconciles env (key_of d) (replicate n None) w1) as [os w2].
  cbn. destruct IH as (IHds & IHcm & IHr & IHw & IHok).
  rewrite IHds, IHcm, IHr, IHw, Htr, ?Hds, ?Hcm. unfold loaded.
  rewrite !count_app. cbn. repeat split; try lia.
  intros Hread. rewrite Hok, IHok; done.
Qed.

Lemma C3_witness :
  let '(os, w') :=
    reconciles (envReplying None) (key_of provisionedX) (replicate 3 None)
      (worldOf provisionedX) in
  os = [Returned None; Returned None; Returned None]
  /\ dashboards w' = dashboards (worldOf provisionedX)
  /\ count is_remote_call (trace w') = 0
  /\ count is_store_write (trace w') = 0.
Proof.
  pose proof (C3_provisioned_reconcile_is_noop (envReplying None) provisionedX
                3 (worldOf provisionedX)) as H.
  destruct (reconciles _ _ _ _) as [os w'].
  destruct H as (Hds & _ & Hr & Hw & Hok).
  - vm_compute; reflexivity.
  - vm_compute; discriminate.
  - vm_compute; intros H; apply H; reflexivity.
  - split; [apply Hok; intros h; reflexivity|]. split; [exact Hds|].
    split; [exact Hr|exact Hw].
Defined.

(** ** The create branch *)

(** C9. When the status write fails in the create branch, Reconcile
    returns that very error at once: the metadata write is not attempted,
    the finalizer is not added and the persisted objects are unchanged. *)
Theorem C9_status_write_error_returned_before_metadata (env : Env)
    (d : Dashboard) (w : World) (resp : HttpResponse) (e : error) :
  dashboards w !! key_of d = Some d ->
  pending d ->
  read_fault env (trace w ++ [EvGetConfigMap configKey]) (key_of d) = None ->
  url_parses env (createUrl (loadConfig env w)) = true ->
  http_reply env (loaded (key_of d) w) (createRequest (loadConfig env w) d)
  = Some resp ->
  write_fault env (afterCreate env d w resp) (statusRequest resp d)
  = Some e ->
  let '(o, w') := exec env (Reconcile (key_of d)) None w in
  o = Returned (Some e)
  /\ dashboards w' = dashboards w
  /\ trace w' = afterCreate env d w resp
                ++ [EvStatusUpdate (statusRequest resp d) (inr e)]
  /\ count is_metadata_write (trace w') = count is_metadata_write (trace w).
Proof.
  intros Hd [Hid Hdel] Hread Hurl Hreply Hfault. apply post_let. follow.
  rewrite !count_app. cbn. repeat split; auto with lia.
Qed.

Lemma C9_witness :
  let '(o, w') :=
    exec (envRefusingWrites (reply 200 "d1" "X")) (Reconcile (key_of pendingX))
      None (worldOf pendingX) in
  o = Returned (Some Conflict)
  /\ dashboards w' = dashboards (worldOf pendingX)
  /\ trace w'
     = afterCreate (envRefusingWrites (reply 200 "d1" "X")) pendingX
         (worldOf pendingX)
         {| StatusCode := 200; Decoded := {| Id := "d1"; Title := "X" |} |}
       ++ [EvStatusUpdate
             (statusRequest
                {| StatusCode := 200;
                   Decoded := {| Id := "d1"; Title := "X" |} |} pendingX)
             (inr Conflict)]
  /\ count is_metadata_write (trace w')
     = count is_metadata_write (trace (worldOf pendingX)).
Proof.
  apply (C9_status_write_error_returned_before_metadata
           (envRefusingWrites (reply 200 "d1" "X")) pendingX (worldOf pendingX)
           {| StatusCode := 200; Decoded := {| Id := "d1"; Title := "X" |} |}
           Conflict); vm_compute; try split; reflexivity.
Defined.

Lemma AddFinalizer_present d f : f ∈ Finalizers (ObjectMeta (AddFinalizer d f)).
Proof.
  unfold AddFinalizer. case_decide; [done|]. cbn. set_solver.
Qed.

Lemma RemoveFinalizer_absent d f :
  f ∉ Finalizers (ObjectMeta (RemoveFinalizer d f)).
Proof.
  unfold RemoveFinalizer. cbn. rewrite list_elem_of_filter. naive_solver.
Qed.

Lemma metaStored_finalizer resp d : finalizerPresent (metaStored resp d).
Proof.
  unfold finalizerPresent, metaStored, metaRequest.
  rewrite Finalizers_written. apply AddFinalizer_present.
Qed.

Lemma metaStored_status resp d :
  Status (metaStored resp d)
  = {| DashboardId := Id (Decoded resp);
       DashboardTitle := Title (Decoded resp) |}.
Proof.
  unfold metaStored, metaRequest, statusStored, statusRequest.
  by frame.
Qed.

(** C5. The create branch of a Pending object keeps one order.  In any
    execution, whatever the collaborators answer and wherever it is cut
    short, a metadata write is made only at the end of this sequence: the
    two reads, the create call with spec.config as payload, the status
    update carrying the id and title of the response and accepted by the
    store, then the metadata update carrying the finalizer, built from the
    object the status update returned.  When the remote service answers
    and both writes are accepted, the object ends with that id and title
    and with the finalizer. *)
Theorem C5_create_then_status_then_finalizer (env : Env) (d : Dashboard)
    (w : World) :
  dashboards w !! key_of d = Some d ->
  pending d ->
  (forall fuel,
     let '(o, w') := exec env (Reconcile (key_of d)) fuel w in
     count is_metadata_write (trace w') = count is_metadata_write (trace w)
     \/ exists resp res,
          trace w' = afterStatus env d w resp
                     ++ [EvUpdate (metaRequest resp d) res]
          /\ o = Returned (write_error res))
  /\ Body (createRequest (loadConfig env w) d) = Some (Config (Spec d))
  /\ (forall resp,
        read_fault env (trace w ++ [EvGetConfigMap configKey]) (key_of d)
        = None ->
        url_parses env (createUrl (loadConfig env w)) = true ->
        http_reply env (loaded (key_of d) w)
          (createRequest (loadConfig env w) d) = Some resp ->
        write_fault env (afterCreate env d w resp) (statusRequest resp d)
        = None ->
        write_fault env (afterStatus env d w resp) (metaRequest resp d)
        = None ->
        let '(o, w') := exec env (Reconcile (key_of d)) None w in
        o = Returned None
        /\ trace w'
           = loaded (key_of d) w
             ++ [EvHttp (createRequest (loadConfig env w) d) (Some resp);
                 EvStatusUpdate (statusRequest resp d)
                   (inl (statusStored resp d));
                 EvUpdate (metaRequest resp d) (inl (metaStored resp d))]
        /\ dashboards w' !! key_of d = Some (metaStored resp d)
        /\ DashboardId (Status (metaStored resp d)) = Id (Decoded resp)
        /\ DashboardTitle (Status (metaStored resp d)) = Title (Decoded resp)
        /\ finalizerPresent (metaStored resp d)).
Proof.
  intros Hd Hp. split; [|split; [done|]].
  - intros fuel. destruct Hp as [Hid Hdel]. apply post_let. follow.
    all: answers Hd.
    all: try congruence.
    all: first
      [ left; rewrite ?count_app; cbn; lia
      | right; eexists _, _; split; reflexivity ].
  - intros resp Hread Hurl Hreply Hw1 Hw2.
    pose proof (metaStored_finalizer resp d) as Hfin.
    pose proof (metaStored_status resp d) as Hst.
    destruct Hp as [Hid Hdel]. apply post_let. follow.
    rewrite Hst. cbn. rewrite <- !app_assoc. cbn.
    repeat split; try done.
    rewrite lookup_commit_meta by (by frame).
    rewrite decide_False; [done|]. frame. naive_solver.
Qed.

Lemma C5_witness :
  let '(o, w') :=
    exec (envReplying (reply 200 "d1" "X")) (Reconcile (key_of pendingX)) None
      (worldOf pendingX) in
  o = Returned None
  /\ exists d', dashboards w' !! key_of pendingX = Some d'
       /\ DashboardId (Status d') = "d1"
       /\ DashboardTitle (Status d') = "X"
       /\ finalizerPresent d'.
Proof.
  pose proof (C5_create_then_status_then_finalizer
                (envReplying (reply 200 "d1" "X")) pendingX (worldOf pendingX))
    as H.
  destruct H as (_ & _ & H).
  - vm_compute; reflexivity.
  - vm_compute; split; reflexivity.
  - specialize (H {| StatusCode := 200;
                     Decoded := {| Id := "d1"; Title := "X" |} |}).
    destruct (exec _ _ _ _) as [o w'].
    destruct H as (Ho & _ & Hl & Hid & Ht & Hf);
      [vm_compute; reflexivity ..|].
    split; [exact Ho|]. eexists. split; [exact Hl|].
    split; [exact Hid|]. split; [exact Ht|exact Hf].
Defined.

(** C8. In the create branch the finalizer is added and the metadata
    write attempted as soon as the status write is accepted, whatever the
    remote service answered: the status carries the id of the response even
    when that id is empty, so an object can end with the finalizer and
    without a remote id. *)
Theorem C8_finalizer_added_whatever_the_response (env : Env) (d : Dashboard)
    (w : World) (resp : HttpResponse) :
  dashboards w !! key_of d = Some d ->
  pending d ->
  read_fault env (trace w ++ [EvGetConfigMap configKey]) (key_of d) = None ->
  url_parses env (createUrl (loadConfig env w)) = true ->
  http_reply env (loaded (key_of d) w) (createRequest (loadConfig env w) d)
  = Some resp ->
  write_fault env (afterCreate env d w resp) (statusRequest resp d) = None ->
  let '(o, w') := exec env (Reconcile (key_of d)) None w in
  exists res,
    trace w' = afterStatus env d w resp ++ [EvUpdate (metaRequest resp d) res]
    /\ finalizerPresent (metaRequest resp d)
    /\ o = Returned (write_error res)
    /\ (write_fault env (afterStatus env d w resp) (metaRequest resp d) = None
        -> o = Returned None
           /\ dashboards w' !! key_of d = Some (metaStored resp d)
           /\ finalizerPresent (metaStored resp d)
           /\ DashboardId (Status (metaStored resp d)) = Id (Decoded resp)
           /\ (Id (Decoded resp) = "" -> ~ provisioned (metaStored resp d))).
Proof.
  intros Hd Hp Hread Hurl Hreply Hw1.
  pose proof (metaStored_finalizer resp d) as Hfin.
  pose proof (metaStored_status resp d) as Hst.
  pose proof (AddFinalizer_present (statusStored resp d) finalizerName) as Hreq.
  destruct Hp as [Hid Hdel]. apply post_let. follow.
  - answers Hd. eexists. split; [reflexivity|]. split; [done|].
    split; [done|]. intros _. frame.
    rewrite lookup_commit_meta by (by frame).
    rewrite decide_False by (frame; naive_solver).
    repeat split; try done. intros Hempty Hne. by apply Hne.
  - eexists. split; [reflexivity|]. split; [done|]. split; [done|].
    intros Hw2.
    erewrite store_write_ok in Heqs;
      [ done
      | cbn; eassumption
      | cbn; rewrite lookup_commit_status by (by frame); reflexivity
      | by frame ].
Qed.

Lemma C8_witness :
  let '(o, w') :=
    exec (envReplying (reply 500 "" "")) (Reconcile (key_of pendingX)) None
      (worldOf pendingX) in
  o = Returned None
  /\ exists d', dashboards w' !! key_of pendingX = Some d'
       /\ finalizerPresent d'
       /\ DashboardId (Status d') = ""
       /\ ~ provisioned d'.
Proof.
  pose proof (C8_finalizer_added_whatever_the_response
                (envReplying (reply 500 "" "")) pendingX (worldOf pendingX)
                {| StatusCode := 500; Decoded := zeroResponse |}) as H.
  destruct (exec _ _ _ _) as [o w'].
  destruct H as (res & _ & _ & _ & H).
  - vm_compute; reflexivity.
  - vm_compute; split; reflexivity.
  - vm_compute; reflexivity.
  - vm_compute; reflexivity.
  - vm_compute; reflexivity.
  - vm_compute; reflexivity.
  - destruct H as (Ho & Hl & Hf & Hid & Hnp); [vm_compute; reflexivity|].
    split; [exact Ho|]. eexists. split; [exact Hl|]. split; [exact Hf|].
    split; [exact Hid|]. apply Hnp. reflexivity.
Defined.

(** ** The deletion branch *)

(** C1, as the specification states it, fails: the remote service answers
    the delete call with 503, and Reconcile still clears the finalizer (the
    object leaves the store) and returns success. *)
Lemma C1_counterexample :
  ~ failed_delete_is_reported (envReplying (reply 503 "" "")) deletingX
      (worldOf deletingX).
Proof.
  unfold failed_delete_is_reported.
  destruct (exec _ _ _ _) as [o w'] eqn:E. vm_compute in E.
  injection E as <- <-. intros H.
  destruct H as [[e He] _]; [vm_compute; lia|discriminate].
Qed.

(** C1, amended. In the deletion branch, whatever HTTP response answers
    the delete call (success, not-found or an error status), the finalizer
    is removed from the object and the metadata update is issued.
    Reconcile returns what that update returns: success, with the
    finalizer cleared in the store, when it is accepted; its error, with
    the persisted objects unchanged, when it is refused.  The reply of the
    remote service never becomes an error. *)
Theorem C1_finalizer_cleared_whatever_the_delete_reply (env : Env)
    (d : Dashboard) (w : World) (resp : HttpResponse) :
  dashboards w !! key_of d = Some d ->
  deletionRequested d ->
  read_fault env (trace w ++ [EvGetConfigMap configKey]) (key_of d) = None ->
  url_parses env (deleteUrl (loadConfig env w) d) = true ->
  http_reply env (loaded (key_of d) w) (deleteRequest (loadConfig env w) d)
  = Some resp ->
  let '(o, w') := exec env (Reconcile (key_of d)) None w in
  exists res,
    trace w' = afterDelete env d w (Some resp)
               ++ [EvUpdate (RemoveFinalizer d finalizerName) res]
    /\ ~ finalizerPresent (RemoveFinalizer d finalizerName)
    /\ o = Returned (write_error res)
    /\ (write_fault env (afterDelete env d w (Some resp))
          (RemoveFinalizer d finalizerName) = None ->
        o = Returned None
        /\ match dashboards w' !! key_of d with
           | Some d' => ~ finalizerPresent d'
           | None => True
           end)
    /\ (forall e,
          write_fault env (afterDelete env d w (Some resp))
            (RemoveFinalizer d finalizerName) = Some e ->
          o = Returned (Some e) /\ dashboards w' = dashboards w).
Proof.
  intros Hd Hdel Hread Hurl Hreply.
  pose proof (RemoveFinalizer_absent d finalizerName) as Hgone.
  apply post_let. follow.
  - eexists. split; [reflexivity|]. split; [done|].
    split; [done|]. split.
    + intros _. split; [done|]. answers Hd.
      rewrite lookup_commit_meta by (by frame). case_decide; [done|].
      unfold finalizerPresent. by frame.
    + intros e' He'. erewrite store_write_fault in Heqs by (cbn; eassumption).
      done.
  - eexists. split; [reflexivity|]. split; [done|]. split; [done|]. split.
    + intros Hw.
      erewrite store_write_ok in Heqs;
        [ done | cbn; eassumption | cbn; by frame | by frame ].
    + intros e' He'. erewrite store_write_fault in Heqs by (cbn; eassumption).
      injection Heqs as <-. by frame.
Qed.

(** What happens at that input: success, the object gone, although the
    one delete call failed. *)
Example deletingX_with_503 :
  let '(o, w') :=
    exec (envReplying (reply 503 "" "")) (Reconcile (key_of deletingX)) None
      (worldOf deletingX) in
  o = Returned None
  /\ dashboards w' !! key_of deletingX = None
  /\ count is_failed_delete (trace w') = 1.
Proof. vm_compute. done. Qed.

Lemma C1_witness :
  let '(o, w') :=
    exec (envReplying (reply 503 "" "")) (Reconcile (key_of deletingX)) None
      (worldOf deletingX) in
  o = Returned None
  /\ match dashboards w' !! key_of deletingX with
     | Some d' => ~ finalizerPresent d'
     | None => True
     end.
Proof.
  pose proof (C1_finalizer_cleared_whatever_the_delete_reply
                (envReplying (reply 503 "" "")) deletingX (worldOf deletingX)
                {| StatusCode := 503; Decoded := zeroResponse |}) as H.
  destruct (exec _ _ _ _) as [o w'].
  destruct H as (res & _ & _ & _ & H & _).
  - vm_compute; reflexivity.
  - vm_compute; discriminate.
  - vm_compute; reflexivity.
  - vm_compute; reflexivity.
  - vm_compute; reflexivity.
  - apply H. vm_compute; reflexivity.
Defined.

(** C2, as the specification states it, fails: deletion is requested on an
    object without a remote id and the delete call is made all the same
    (to the URL that ends in the empty id). *)
Lemma C2_counterexample :
  ~ delete_only_with_remoteId (envReplying (reply 404 "" ""))
      deletingUnprovisioned (worldOf deletingUnprovisioned).
Proof.
  unfold delete_only_with_remoteId.
  destruct (exec _ _ _ _) as [o w'] eqn:E. vm_compute in E.
  injection E as <- <-. intros [H _]. apply H; [vm_compute; lia|reflexivity].
Qed.

Example deletingUnprovisioned_run :
  let env := envReplying (reply 404 "" "") in
  let '(o, w') :=
    exec env (Reconcile (key_of deletingUnprovisioned)) None
      (worldOf deletingUnprovisioned) in
  o = Returned None
  /\ count is_delete_call (trace w') = 1
  /\ URL (deleteRequest (loadConfig env (worldOf deletingUnprovisioned))
            deletingUnprovisioned)
     = "https://instana.example/api/custom-dashboard/".
Proof. vm_compute. done. Qed.

(** C2, amended. In the deletion branch the remote delete call is made
    once, whether status.remoteId is empty or not, to the URL that ends in
    that id; it follows the two reads and precedes every store write, and
    no other remote call is made. *)
Theorem C2_delete_call_made_whatever_the_remoteId (env : Env) (d : Dashboard)
    (w : World) :
  dashboards w !! key_of d = Some d ->
  deletionRequested d ->
  read_fault env (trace w ++ [EvGetConfigMap configKey]) (key_of d) = None ->
  url_parses env (deleteUrl (loadConfig env w) d) = true ->
  let '(o, w') := exec env (Reconcile (key_of d)) None w in
  exists rest,
    trace w'
    = afterDelete env d w
        (http_reply env (loaded (key_of d) w)
           (deleteRequest (loadConfig env w) d))
      ++ rest
    /\ URL (deleteRequest (loadConfig env w) d)
       = BaseUrl (loadConfig env w) +:+ "/api/custom-dashboard/"
         +:+ DashboardId (Status d)
    /\ count is_remote_call rest = 0
    /\ count is_delete_call (trace w') = count is_delete_call (trace w) + 1
    /\ count is_store_write (loaded (key_of d) w)
       = count is_store_write (trace w).
Proof.
  intros Hd Hdel Hread Hurl. apply post_let. follow.
  1, 2: eexists [_]; split; [reflexivity|].
  3: exists []; rewrite app_nil_r; split; [reflexivity|].
  all: rewrite !count_app; cbn; frame; repeat split; try done; lia.
Qed.

Lemma C2_witness :
  let env := envReplying (reply 404 "" "") in
  let d := deletingUnprovisioned in
  let '(o, w') := exec env (Reconcile (key_of d)) None (worldOf d) in
  exists rest,
    trace w'
    = afterDelete env d (worldOf d)
        (http_reply env (loaded (key_of d) (worldOf d))
           (deleteRequest (loadConfig env (worldOf d)) d))
      ++ rest
    /\ URL (deleteRequest (loadConfig env (worldOf d)) d)
       = BaseUrl (loadConfig env (worldOf d)) +:+ "/api/custom-dashboard/"
         +:+ DashboardId (Status d)
    /\ count is_remote_call rest = 0
    /\ count is_delete_call (trace w')
       = count is_delete_call (trace (worldOf d)) + 1
    /\ count is_store_write (loaded (key_of d) (worldOf d))
       = count is_store_write (trace (worldOf d)).
Proof.
  apply (C2_delete_call_made_whatever_the_remoteId
           (envReplying (reply 404 "" "")) deletingUnprovisioned
           (worldOf deletingUnprovisioned)).
  - vm_compute; reflexivity.
  - vm_compute; discriminate.
  - vm_compute; reflexivity.
  - vm_compute; reflexivity.
Defined.

(** ** Across reconciles *)

Lemma post_and {R} env (p : Prog R) fuel w (Q1 Q2 : Outcome R -> World -> Prop) :
  post env p fuel w Q1 -> post env p fuel w Q2 ->
  post env p fuel w (fun o w' => Q1 o w' /\ Q2 o w').
Proof. rewrite !post_exec. done. Qed.

Lemma count_create_le_remote t :
  count is_create_call t <= count is_remote_call t.
Proof.
  induction t as [|e t IH]; cbn; [done|].
  destruct e; cbn; try lia. case_bool_decide; lia.
Qed.

(** An object with a remote id stays settled through any execution, and
    no create call is made for it. *)
Lemma settled_step env fuel d w :
  provisioned d -> settled d w ->
  post env (Reconcile (key_of d)) fuel w (fun _ w' =>
    settled d w'
    /\ count is_create_call (trace w') = count is_create_call (trace w)).
Proof.
  intros Hp. unfold settled.
  destruct (dashboards w !! key_of d) as [d0|] eqn:E.
  - intros [(Hk & Hspec & Hdt) Hst]. rewrite <- Hk in E |- *.
    eapply post_mono;
      [|apply post_and; [by apply Reconcile_store|by apply Reconcile_trace]].
    intros o w' [(_ & _ & Hcase) (evs & Htr & _ & _ & Hzero)].
    assert (provisioned d0) as Hp0 by (unfold provisioned in *; by rewrite Hst).
    split.
    + destruct Hcase as [[-> Hdel]|(d' & -> & (Hk' & Hs' & Hd') & Hst')].
      * unfold deletionRequested in *. by rewrite <- Hdt.
      * unfold same_frame. rewrite Hk', Hs', Hd', Hst' by done. done.
    + rewrite Htr, count_app, Hzero by done. lia.
  - intros Hdel.
    eapply post_mono; [|by apply Reconcile_absent].
    intros o w' (Hds & _ & evs & Htr & Hrem & _).
    rewrite Hds, E. split; [done|].
    pose proof (count_create_le_remote evs).
    rewrite Htr, count_app. lia.
Qed.

Lemma settled_schedule env d sched w :
  provisioned d -> settled d w ->
  settled d (reconciles env (key_of d) sched w).2
  /\ count is_create_call (trace (reconciles env (key_of d) sched w).2)
     = count is_create_call (trace w).
Proof.
  intros Hp. revert w. induction sched as [|fuel sched IH]; intros w Hs.
  { done. }
  rewrite reconciles_cons. cbn [snd].
  pose proof (settled_step env fuel d w Hp Hs) as Hstep.
  apply post_exec in Hstep. destruct Hstep as [Hs1 Hc1].
  destruct (IH _ Hs1) as [Hs2 Hc2]. split; [done|]. by rewrite Hc2.
Qed.

(** C6. Once status.remoteId is non-empty, no schedule of reconciles,
    crashed or not, reassigns or clears it: the object keeps its status, or
    it has left the store, which only happens after its deletion was
    requested. *)
Theorem C6_remoteId_assigned_at_most_once (env : Env) (d : Dashboard)
    (sched : list (option nat)) (w : World) :
  dashboards w !! key_of d = Some d ->
  provisioned d ->
  let '(_, w') := reconciles env (key_of d) sched w in
  (exists d', dashboards w' !! key_of d = Some d'
     /\ DashboardId (Status d') = DashboardId (Status d)
     /\ Status d' = Status d)
  \/ (dashboards w' !! key_of d = None /\ deletionRequested d).
Proof.
  intros Hd Hp.
  assert (settled d w) as Hs by (unfold settled, same_frame; by rewrite Hd).
  destruct (settled_schedule env d sched w Hp Hs) as [Hs' _].
  destruct (reconciles env (key_of d) sched w) as [os w']. cbn in Hs'.
  unfold settled in Hs'.
  destruct (dashboards w' !! key_of d) as [d'|]; [left|right; done].
  exists d'. destruct Hs' as [_ ->]. done.
Qed.

Lemma C6_witness :
  let '(_, w') :=
    reconciles (envReplying (reply 200 "d2" "Y")) (key_of provisionedX)
      [None; Some 1; None] (worldOf provisionedX) in
  (exists d', dashboards w' !! key_of provisionedX = Some d'
     /\ DashboardId (Status d') = DashboardId (Status provisionedX)
     /\ Status d' = Status provisionedX)
  \/ (dashboards w' !! key_of provisionedX = None
      /\ deletionRequested provisionedX).
Proof.
  apply (C6_remoteId_assigned_at_most_once (envReplying (reply 200 "d2" "Y"))
           provisionedX [None; Some 1; None] (worldOf provisionedX)).
  - vm_compute; reflexivity.
  - vm_compute; discriminate.
Defined.

(** ** At most one create *)

(** C4, as the specification states it, fails: the store refuses the first
    status write with a conflict, the remote id of the dashboard just
    created is lost, and the next reconcile creates a second one. *)
Lemma C4_counterexample :
  ~ at_most_one_create (envRefusingFirstWrite (reply 200 "d1" "X")) pendingX
      [None; None] (worldOf pendingX).
Proof. unfold at_most_one_create. vm_compute. lia. Qed.

Example pendingX_created_twice :
  let '(os, w') :=
    reconciles (envRefusingFirstWrite (reply 200 "d1" "X")) (key_of pendingX)
      [None; None] (worldOf pendingX) in
  os = [Returned (Some Conflict); Returned None]
  /\ count is_create_call (trace w') = 2.
Proof. vm_compute. done. Qed.

(** The first reconcile of a Pending object, run at least up to the status
    write, with an id in the response and the status write accepted: one
    create call, and the id is persisted; this does not depend on the
    metadata write. *)
Lemma first_create env fuel d w resp :
  dashboards w !! key_of d = Some d ->
  pending d ->
  read_fault env (trace w ++ [EvGetConfigMap configKey]) (key_of d) = None ->
  url_parses env (createUrl (loadConfig env w)) = true ->
  http_reply env (loaded (key_of d) w) (createRequest (loadConfig env w) d)
  = Some resp ->
  write_fault env (afterCreate env d w resp) (statusRequest resp d) = None ->
  (forall n, fuel = Some n -> 5 <= n) ->
  post env (Reconcile (key_of d)) fuel w (fun _ w' =>
    count is_create_call (trace w') = count is_create_call (trace w) + 1
    /\ exists d', dashboards w' !! key_of d = Some d'
         /\ key_of d' = key_of d
         /\ DashboardId (Status d') = Id (Decoded resp)).
Proof.
  intros Hd [Hid Hdel] Hread Hurl Hreply Hw1 Hfuel.
  destruct fuel as [n|]; [specialize (Hfuel n eq_refl)|clear Hfuel].
  all: follow; try lia.
  all: answers Hd; forget_decisions; frame.
  all: rewrite !count_app; cbn; frame; split; [lia|].
  all: rewrite ?lookup_commit_meta by (by frame).
  all: rewrite ?decide_False by (frame; naive_solver).
  all: rewrite ?lookup_commit_status by (by frame).
  all: eexists; split; [reflexivity|]; by frame.
Qed.

(** C4, amended. For a Pending object whose create call is answered with a
    non-empty id and whose status write is accepted, exactly one create
    call is made over any schedule of reconciles, also when the first
    execution crashes or fails between the status write and the metadata
    write: later reconciles find the remote id and do not create again. *)
Theorem C4_one_create_once_the_id_is_persisted (env : Env) (d : Dashboard)
    (w : World) (resp : HttpResponse) (fuel : option nat)
    (sched : list (option nat)) :
  dashboards w !! key_of d = Some d ->
  pending d ->
  read_fault env (trace w ++ [EvGetConfigMap configKey]) (key_of d) = None ->
  url_parses env (createUrl (loadConfig env w)) = true ->
  http_reply env (loaded (key_of d) w) (createRequest (loadConfig env w) d)
  = Some resp ->
  Id (Decoded resp) <> "" ->
  write_fault env (afterCreate env d w resp) (statusRequest resp d) = None ->
  (forall n, fuel = Some n -> 5 <= n) ->
  count is_create_call
    (trace (reconciles env (key_of d) (fuel :: sched) w).2)
  = count is_create_call (trace w) + 1.
Proof.
  intros Hd Hp Hread Hurl Hreply Hid Hw1 Hfuel.
  pose proof (first_create env fuel d w resp Hd Hp Hread Hurl Hreply Hw1 Hfuel)
    as Hfirst.
  apply post_exec in Hfirst. destruct Hfirst as (Hc & d' & Hd' & Hk & Hst).
  rewrite reconciles_cons. cbn [snd].
  set (w1 := (exec env (Reconcile (key_of d)) fuel w).2) in *.
  assert (provisioned d') as Hp' by (unfold provisioned; by rewrite Hst).
  assert (settled d' w1) as Hs.
  { unfold settled. rewrite Hk, Hd'. done. }
  rewrite <- Hk.
  destruct (settled_schedule env d' sched w1 Hp' Hs) as [_ ->]. exact Hc.
Qed.

Lemma C4_witness :
  count is_create_call
    (trace (reconciles (envReplying (reply 200 "d1" "X")) (key_of pendingX)
              (Some 5 :: [None; None]) (worldOf pendingX)).2)
  = count is_create_call (trace (worldOf pendingX)) + 1.
Proof.
  apply (C4_one_create_once_the_id_is_persisted
           (envReplying (reply 200 "d1" "X")) pendingX (worldOf pendingX)
           {| StatusCode := 200; Decoded := {| Id := "d1"; Title := "X" |} |}
           (Some 5) [None; None]).
  - vm_compute; reflexivity.
  - vm_compute; split; reflexivity.
  - vm_compute; reflexivity.
  - vm_compute; reflexivity.
  - vm_compute; reflexivity.
  - vm_compute; discriminate.
  - vm_compute; reflexivity.
  - intros n [= <-]. lia.
Defined.

(** ** Frame *)

(** C10. No execution of Reconcile, complete or cut short at any point,
    changes spec.config or the identity of an object: the config maps and
    the other objects are untouched, the reconciled object is either gone
    (after its deletion was requested) or keeps its namespace, name, spec
    and deletion mark, and every write request carries them unchanged.
    Nothing is written for an identity that is not in the store. *)
Theorem C10_reconcile_writes_only_status_and_finalizers (env : Env)
    (fuel : option nat) (req : ObjectKey) (w : World) :
  (forall d, dashboards w !! req = Some d -> key_of d = req) ->
  let '(_, w') := exec env (Reconcile req) fuel w in
  configmaps w' = configmaps w
  /\ (forall k, k <> req -> dashboards w' !! k = dashboards w !! k)
  /\ match dashboards w !! req with
     | Some d =>
         ((dashboards w' !! req = None /\ deletionRequested d)
          \/ exists d', dashboards w' !! req = Some d'
               /\ Namespace (ObjectMeta d') = Namespace (ObjectMeta d)
               /\ Name (ObjectMeta d') = Name (ObjectMeta d)
               /\ Spec d' = Spec d
               /\ DeletionTimestamp (ObjectMeta d')
                  = DeletionTimestamp (ObjectMeta d))
         /\ exists evs, trace w' = trace w ++ evs
              /\ Forall (write_frame d) evs
     | None =>
         dashboards w' !! req = None
         /\ exists evs, trace w' = trace w ++ evs
              /\ count is_store_write evs = 0
     end.
Proof.
  intros Hwf. apply post_let.
  destruct (dashboards w !! req) as [d|] eqn:E.
  - specialize (Hwf d eq_refl). subst req.
    eapply post_mono;
      [|apply post_and; [by apply Reconcile_store|by apply Reconcile_trace]].
    intros o w' [(Hcm & Hne & Hcase) (evs & Htr & Hfr & _)].
    split; [done|]. split; [done|]. split; [|by exists evs].
    destruct Hcase as [?|(d' & Hl & (Hk & Hs & Hd) & _)]; [by left|right].
    exists d'. unfold key_of in Hk. injection Hk as Hns Hn. done.
  - eapply post_mono; [|by apply Reconcile_absent].
    intros o w' (Hds & Hcm & evs & Htr & _ & Hwr).
    rewrite Hds. split; [done|]. split; [done|]. split; [done|].
    by exists evs.
Qed.

Lemma C10_witness :
  let '(_, w') :=
    exec (envReplying (reply 200 "d1" "X")) (Reconcile (key_of pendingX))
      (Some 5) (worldOf pendingX) in
  configmaps w' = configmaps (worldOf pendingX)
  /\ (forall k, k <> key_of pendingX ->
        dashboards w' !! k = dashboards (worldOf pendingX) !! k)
  /\ match dashboards (worldOf pendingX) !! key_of pendingX with
     | Some d =>
         ((dashboards w' !! key_of pendingX = None /\ deletionRequested d)
          \/ exists d', dashboards w' !! key_of pendingX = Some d'
               /\ Namespace (ObjectMeta d') = Namespace (ObjectMeta d)
               /\ Name (ObjectMeta d') = Name (ObjectMeta d)
               /\ Spec d' = Spec d
               /\ DeletionTimestamp (ObjectMeta d')
                  = DeletionTimestamp (ObjectMeta d))
         /\ exists evs, trace w' = trace (worldOf pendingX) ++ evs
              /\ Forall (write_frame d) evs
     | None =>
         dashboards w' !! key_of pendingX = None
         /\ exists evs, trace w' = trace (worldOf pendingX) ++ evs
              /\ count is_store_write evs = 0
     end.
Proof.
  apply (C10_reconcile_writes_only_status_and_finalizers
           (envReplying (reply 200 "d1" "X")) (Some 5) (key_of pendingX)
           (worldOf pendingX)).
  intros d. vm_compute. intros [= <-]. reflexivity.
Defined.

(** ** The shape of every execution *)

Lemma store_get_fault {A : Type} (env : Env) (m : gmap ObjectKey A)
    (key : ObjectKey) (w : World) (e : error) :
  read_fault env (trace w) key = Some e -> store_get env m key w = inr e.
Proof. unfold store_get. by intros ->. Qed.


(** An error returned by Reconcile is an error of the store: the failed
    load of the object (other than not-found), or the refusal of the last
    write it made.  No answer of the remote service becomes an error. *)
Theorem reconcile_errors_come_from_the_store (env : Env) (fuel : option nat)
    (req : ObjectKey) (w : World) :
  let '(o, w') := exec env (Reconcile req) fuel w in
  match o with
  | Returned (Some e) =>
      exists evs, trace w' = trace w ++ evs
        /\ ((evs = [EvGetConfigMap configKey; EvGetDashboard req]
             /\ store_get env (dashboards w) req
                  (record (EvGetConfigMap configKey) (dashboards w) w)
                = inr e
             /\ e <> NotFound)
            \/ exists d, last evs = Some (EvStatusUpdate d (inr e))
                 \/ last evs = Some (EvUpdate d (inr e)))
  | _ => True
  end.
Proof.
  apply post_let. run.
  all: try done.
  all: try (new_events; right; eexists; first [by left | by right]).
  all: destruct e; cbn; try done; new_events; left; done.
Qed.

(** ** Errors and panics *)

(** When the load of the object fails with anything but not-found,
    Reconcile returns that error after the two reads: nobody is called and
    nothing is written, whether or not the object exists. *)
Theorem reconcile_load_error_is_returned (env : Env) (req : ObjectKey)
    (w : World) (e : error) :
  read_fault env (trace w ++ [EvGetConfigMap configKey]) req = Some e ->
  e <> NotFound ->
  let '(o, w') := exec env (Reconcile req) None w in
  o = Returned (Some e)
  /\ dashboards w' = dashboards w
  /\ trace w' = loaded req w.
Proof.
  intros Hf Hne. apply post_let. prepare. unfold Reconcile. cbn.
  do 2 (step; cbn).
  erewrite store_get_fault by (cbn; eassumption). step.
  by destruct e.
Qed.

Lemma reconcile_load_error_is_returned_witness :
  let '(o, w') :=
    exec envUnreachable (Reconcile (key_of pendingX)) None
      (worldOf pendingX) in
  o = Returned (Some (OtherError "connection refused"))
  /\ dashboards w' = dashboards (worldOf pendingX)
  /\ trace w' = loaded (key_of pendingX) (worldOf pendingX).
Proof.
  apply (reconcile_load_error_is_returned envUnreachable (key_of pendingX)
           (worldOf pendingX) (OtherError "connection refused")).
  - vm_compute; reflexivity.
  - discriminate.
Defined.

(** When client.Do returns no response, the helper dereferences the nil
    response: Reconcile panics right after the call.  Nothing has been
    written: a Pending object keeps its empty status, a Deleting object
    keeps its finalizer. *)
Theorem reconcile_panics_without_response (env : Env) (d : Dashboard)
    (w : World) :
  dashboards w !! key_of d = Some d ->
  deletionRequested d \/ ~ provisioned d ->
  read_fault env (trace w ++ [EvGetConfigMap configKey]) (key_of d) = None ->
  url_parses env (requestUrl (loadConfig env w) d) = true ->
  http_reply env (loaded (key_of d) w) (requestFor (loadConfig env w) d)
  = None ->
  let '(o, w') := exec env (Reconcile (key_of d)) None w in
  o = Panicked
  /\ dashboards w' = dashboards w
  /\ trace w' = loaded (key_of d) w
                ++ [EvHttp (requestFor (loadConfig env w) d) None].
Proof.
  intros Hd Hbranch Hread Hurl Hreply. unfold requestUrl, requestFor in *.
  apply post_let. destruct (decide (deletionRequested d)) as [Hdel|Hdel].
  - follow. done.
  - destruct Hbranch as [?|Hnp]; [done|]. follow. done.
Qed.

Lemma reconcile_panics_without_response_witness :
  let '(o, w') :=
    exec (envReplying None) (Reconcile (key_of deletingX)) None
      (worldOf deletingX) in
  o = Panicked
  /\ dashboards w' = dashboards (worldOf deletingX)
  /\ trace w'
     = loaded (key_of deletingX) (worldOf deletingX)
       ++ [EvHttp (requestFor (loadConfig (envReplying None)
                                 (worldOf deletingX)) deletingX) None].
Proof.
  apply (reconcile_panics_without_response (envReplying None) deletingX
           (worldOf deletingX)).
  - vm_compute; reflexivity.
  - left. vm_compute; discriminate.
  - vm_compute; reflexivity.
  - vm_compute; reflexivity.
  - vm_compute; reflexivity.
Defined.

(** When http.NewRequest rejects the URL, the helper dereferences the nil
    request: Reconcile panics before anything is sent or written. *)
Theorem reconcile_panics_on_bad_url (env : Env) (d : Dashboard) (w : World) :
  dashboards w !! key_of d = Some d ->
  deletionRequested d \/ ~ provisioned d ->
  read_fault env (trace w ++ [EvGetConfigMap configKey]) (key_of d) = None ->
  url_parses env (requestUrl (loadConfig env w) d) = false ->
  let '(o, w') := exec env (Reconcile (key_of d)) None w in
  o = Panicked
  /\ dashboards w' = dashboards w
  /\ trace w' = loaded (key_of d) w.
Proof.
  intros Hd Hbranch Hread Hurl. unfold requestUrl in *.
  apply post_let. destruct (decide (deletionRequested d)) as [Hdel|Hdel].
  - follow. done.
  - destruct Hbranch as [?|Hnp]; [done|]. follow. done.
Qed.

Lemma reconcile_panics_on_bad_url_witness :
  let '(o, w') :=
    exec envBadUrl (Reconcile (key_of pendingX)) None (worldOf pendingX) in
  o = Panicked
  /\ dashboards w' = dashboards (worldOf pendingX)
  /\ trace w' = loaded (key_of pendingX) (worldOf pendingX).
Proof.
  apply (reconcile_panics_on_bad_url envBadUrl pendingX (worldOf pendingX)).
  - vm_compute; reflexivity.
  - right. vm_compute. intros H; apply H; reflexivity.
  - vm_compute; reflexivity.
  - vm_compute; reflexivity.
Defined.

(** ** Branch priority and the requests sent *)

(** Deletion comes first: for an object whose deletion is requested, with
    or without a remote id, no execution makes a create call or a status
    write. *)
Theorem reconcile_deleting_never_creates (env : Env) (fuel : option nat)
    (d : Dashboard) (w : World) :
  dashboards w !! key_of d = Some d ->
  deletionRequested d ->
  let '(_, w') := exec env (Reconcile (key_of d)) fuel w in
  exists evs, trace w' = trace w ++ evs
    /\ count is_create_call evs = 0
    /\ count is_status_write evs = 0.
Proof.
  intros Hd Hdel. apply post_let. prepare. run.
  all: answers Hd; forget_decisions; try done.
  all: new_events; cbn; frame; done.
Qed.

Lemma reconcile_deleting_never_creates_witness :
  let '(_, w') :=
    exec (envReplying (reply 200 "d9" "Z"))
      (Reconcile (key_of deletingUnprovisioned)) None
      (worldOf deletingUnprovisioned) in
  exists evs, trace w' = trace (worldOf deletingUnprovisioned) ++ evs
    /\ count is_create_call evs = 0
    /\ count is_status_write evs = 0.
Proof.
  apply (reconcile_deleting_never_creates (envReplying (reply 200 "d9" "Z"))
           None deletingUnprovisioned (worldOf deletingUnprovisioned)).
  - vm_compute; reflexivity.
  - vm_compute; discriminate.
Defined.





(** ** Finalizers of other controllers *)

Lemma foreignFinalizers_AddFinalizer d :
  foreignFinalizers (AddFinalizer d finalizerName) = foreignFinalizers d.
Proof.
  unfold foreignFinalizers, AddFinalizer. case_decide; [done|]. cbn.
  rewrite filter_app. cbn. rewrite decide_False by (intros H'; by apply H').
  by rewrite app_nil_r.
Qed.

Lemma foreignFinalizers_RemoveFinalizer d :
  foreignFinalizers (RemoveFinalizer d finalizerName) = foreignFinalizers d.
Proof.
  unfold foreignFinalizers, RemoveFinalizer. cbn.
  induction (Finalizers (ObjectMeta d)) as [|f fs IH]; [done|].
  cbn. case_decide; cbn; [|done]. rewrite decide_True by done. by f_equal.
Qed.

Lemma foreignFinalizers_written so d old :
  foreignFinalizers (written so d old)
  = foreignFinalizers (if so then old else d).
Proof. unfold foreignFinalizers. by rewrite Finalizers_written. Qed.

Lemma Finalizers_RemoveFinalizer d :
  Finalizers (ObjectMeta (RemoveFinalizer d finalizerName))
  = foreignFinalizers d.
Proof. reflexivity. Qed.

(** No execution touches the finalizers of other controllers: the stored
    object keeps them, and it leaves the store only when its deletion was
    requested and none of them is left. *)
Theorem reconcile_keeps_foreign_finalizers (env : Env) (fuel : option nat)
    (d : Dashboard) (w : World) :
  dashboards w !! key_of d = Some d ->
  let '(_, w') := exec env (Reconcile (key_of d)) fuel w in
  match dashboards w' !! key_of d with
  | Some d' => foreignFinalizers d' = foreignFinalizers d
  | None => deletionRequested d /\ foreignFinalizers d = []
  end.
Proof.
  intros Hd. apply post_let. run.
  all: answers Hd; forget_decisions; frame.
  all: rewrite ?lookup_commit_meta by (by frame).
  all: rewrite ?lookup_commit_status by (by frame).
  all: rewrite ?Hd; try done.
  all: try case_decide.
  all: rewrite ?foreignFinalizers_written, ?foreignFinalizers_AddFinalizer,
         ?foreignFinalizers_written, ?foreignFinalizers_RemoveFinalizer;
       try done.
  all: frame; rewrite ?Finalizers_RemoveFinalizer in *.
  all: unfold deletionRequested; naive_solver.
Qed.

Lemma reconcile_keeps_foreign_finalizers_witness :
  let '(_, w') :=
    exec (envReplying (reply 200 "" "")) (Reconcile (key_of deletingShared))
      None (worldOf deletingShared) in
  match dashboards w' !! key_of deletingShared with
  | Some d' => foreignFinalizers d' = foreignFinalizers deletingShared
  | None =>
      deletionRequested deletingShared
      /\ foreignFinalizers deletingShared = []
  end.
Proof.
  apply (reconcile_keeps_foreign_finalizers (envReplying (reply 200 "" ""))
           None deletingShared (worldOf deletingShared)).
  vm_compute; reflexivity.
Defined.

Example deletingShared_stays :
  let '(o, w') :=
    exec (envReplying (reply 200 "" "")) (Reconcile (key_of deletingShared))
      None (worldOf deletingShared) in
  o = Returned None
  /\ (Finalizers ∘ ObjectMeta) <$> dashboards w' !! key_of deletingShared
     = Some ["other/finalizer"].
Proof. vm_compute. done. Qed.

(** ** The crash window of the create branch *)

(** Any execution on an object with a remote id and without a deletion
    request leaves the persisted objects alone and calls nobody. *)
Lemma quiet_step env fuel d w :
  dashboards w !! key_of d = Some d ->
  provisioned d -> ~ deletionRequested d ->
  post env (Reconcile (key_of d)) fuel w (fun _ w' =>
    dashboards w' = dashboards w
    /\ count is_remote_call (trace w') = count is_remote_call (trace w)).
Proof.
  intros Hd Hp Hn. prepare. run.
  all: answers Hd; forget_decisions; try done.
  all: rewrite ?count_app; cbn; split; [done|lia].
Qed.

Lemma quiet_schedule env d sched w :
  dashboards w !! key_of d = Some d ->
  provisioned d -> ~ deletionRequested d ->
  dashboards (reconciles env (key_of d) sched w).2 = dashboards w
  /\ count is_remote_call (trace (reconciles env (key_of d) sched w).2)
     = count is_remote_call (trace w).
Proof.
  intros Hd Hp Hn. revert w Hd.
  induction sched as [|fuel sched IH]; intros w Hd; [done|].
  rewrite reconciles_cons. cbn [snd].
  pose proof (quiet_step env fuel d w Hd Hp Hn) as Hstep.
  apply post_exec in Hstep. destruct Hstep as [Hds Hc].
  destruct (IH (exec env (Reconcile (key_of d)) fuel w).2) as [Hds' Hc'].
  { by rewrite Hds. }
  by rewrite Hds', Hc', Hds, Hc.
Qed.

(** The first execution up to the status write, then the crash. *)
Lemma crashed_create env d w resp :
  dashboards w !! key_of d = Some d ->
  pending d ->
  read_fault env (trace w ++ [EvGetConfigMap configKey]) (key_of d) = None ->
  url_parses env (createUrl (loadConfig env w)) = true ->
  http_reply env (loaded (key_of d) w) (createRequest (loadConfig env w) d)
  = Some resp ->
  write_fault env (afterCreate env d w resp) (statusRequest resp d) = None ->
  post env (Reconcile (key_of d)) (Some 5) w (fun o w' =>
    o = Crashed
    /\ dashboards w' = <[key_of d := statusStored resp d]> (dashboards w)
    /\ count is_remote_call (trace w') = count is_remote_call (trace w) + 1).
Proof.
  intros Hd [Hid Hdel] Hread Hurl Hreply Hw1. follow.
  rewrite !count_app. cbn. split; [done|]. split; [done|lia].
Qed.

(** A crash between the status write and the metadata write is never
    repaired: the object has its remote id and no finalizer, and every
    later reconcile, complete or not, leaves it so and never contacts the
    remote service again. *)
Theorem crash_before_finalizer_is_never_repaired (env : Env) (d : Dashboard)
    (w : World) (resp : HttpResponse) (sched : list (option nat)) :
  dashboards w !! key_of d = Some d ->
  pending d ->
  ~ finalizerPresent d ->
  read_fault env (trace w ++ [EvGetConfigMap configKey]) (key_of d) = None ->
  url_parses env (createUrl (loadConfig env w)) = true ->
  http_reply env (loaded (key_of d) w) (createRequest (loadConfig env w) d)
  = Some resp ->
  Id (Decoded resp) <> "" ->
  write_fault env (afterCreate env d w resp) (statusRequest resp d) = None ->
  let '(_, w') := reconciles env (key_of d) (Some 5 :: sched) w in
  dashboards w' !! key_of d = Some (statusStored resp d)
  /\ DashboardId (Status (statusStored resp d)) = Id (Decoded resp)
  /\ ~ finalizerPresent (statusStored resp d)
  /\ count is_remote_call (trace w') = count is_remote_call (trace w) + 1.
Proof.
  intros Hd Hp Hnf Hread Hurl Hreply Hid Hw1.
  pose proof (crashed_create env d w resp Hd Hp Hread Hurl Hreply Hw1) as H1.
  apply post_exec in H1. destruct H1 as (_ & Hds & Hc).
  assert (key_of (statusStored resp d) = key_of d) as Hk by reflexivity.
  assert (DashboardId (Status (statusStored resp d)) = Id (Decoded resp))
    as Hst by reflexivity.
  assert (~ deletionRequested (statusStored resp d)) as Hnd.
  { destruct Hp as [_ Hdel]. unfold deletionRequested, statusStored.
    frame. intros Hne. by apply Hne. }
  rewrite reconciles_cons.
  set (w1 := (exec env (Reconcile (key_of d)) (Some 5) w).2) in *.
  assert (dashboards w1 !! key_of (statusStored resp d)
          = Some (statusStored resp d)) as Hd1.
  { rewrite Hk, Hds. apply lookup_insert_eq. }
  assert (provisioned (statusStored resp d)) as Hp1.
  { unfold provisioned. by rewrite Hst. }
  destruct (quiet_schedule env (statusStored resp d) sched w1 Hd1 Hp1 Hnd)
    as [Hds' Hc'].
  rewrite Hk in Hds', Hc'.
  rewrite Hds', Hds, lookup_insert_eq, Hc', Hc.
  repeat split; done.
Qed.

Lemma crash_before_finalizer_is_never_repaired_witness :
  let '(_, w') :=
    reconciles (envReplying (reply 200 "d1" "X")) (key_of pendingX)
      (Some 5 :: [None; None; None]) (worldOf pendingX) in
  let resp := {| StatusCode := 200;
                 Decoded := {| Id := "d1"; Title := "X" |} |} in
  dashboards w' !! key_of pendingX = Some (statusStored resp pendingX)
  /\ DashboardId (Status (statusStored resp pendingX)) = Id (Decoded resp)
  /\ ~ finalizerPresent (statusStored resp pendingX)
  /\ count is_remote_call (trace w')
     = count is_remote_call (trace (worldOf pendingX)) + 1.
Proof.
  apply (crash_before_finalizer_is_never_repaired
           (envReplying (reply 200 "d1" "X")) pendingX (worldOf pendingX)
           {| StatusCode := 200; Decoded := {| Id := "d1"; Title := "X" |} |}
           [None; None; None]).
  - vm_compute; reflexivity.
  - vm_compute; split; reflexivity.
  - vm_compute. intros H. inversion H.
  - vm_compute; reflexivity.
  - vm_compute; reflexivity.
  - vm_compute; reflexivity.
  - vm_compute; discriminate.
  - vm_compute; reflexivity.
Defined.

(** ** From create to delete *)






(** ** The listing request *)

